(** * Pixel-to-GPS conversion: a shallow embedding of [object_gps_position.py]

    The four functions of the module ([compute_K], [compute_camera_rotation],
    [compute_object_world_coords], [compute_object_gps_coords]) and the
    pipeline that [app.py] runs on them, with the properties stated for them.

    Number model.  Python numbers and NumPy [float64] values are real numbers
    computed exactly: rounding and overflow are not part of this development.
    What IEEE arithmetic adds to the reals where an operation has no real
    result is kept: a NumPy value is a real, an infinity or NaN ([npfloat]),
    and a NumPy division by zero returns an infinity or NaN, while a division
    of Python scalars by zero raises [ZeroDivisionError].  The negative zero
    is identified with zero, so a zero divisor counts as [+0.0]. *)

From Stdlib Require Import Reals Lra ZArith Lia Zfloor String.

Open Scope R_scope.

(** ** Exceptions and results *)

(** The exceptions the module can raise. *)
Inductive exn : Type :=
| ZeroDivisionError   (* Python: [a / b] with [b == 0] on scalars *)
| LinAlgError.        (* NumPy: [np.linalg.inv] of a singular matrix *)

(** A call returns a value or raises. *)
Inductive result (A : Type) : Type :=
| Ok (a : A)
| Raise (e : exn).

Arguments Ok {A} a.
Arguments Raise {A} e.

Definition bind {A B : Type} (m : result A) (k : A -> result B) : result B :=
  match m with
  | Ok a => k a
  | Raise e => Raise e
  end.

Notation "x <- m ;; k" := (bind m (fun x => k))
  (at level 61, m at next level, right associativity).

Definition raises {A : Type} (m : result A) : Prop :=
  exists e, m = Raise e.

(** ** NumPy floating-point values *)

Inductive npfloat : Type :=
| Fin (r : R)
| PInf
| NInf
| NaN.

Definition is_inf (a : npfloat) : Prop :=
  match a with
  | PInf | NInf => True
  | _ => False
  end.

Definition not_finite (a : npfloat) : Prop := a = NaN \/ is_inf a.

Definition np_neg (a : npfloat) : npfloat :=
  match a with
  | Fin x => Fin (- x)
  | PInf => NInf
  | NInf => PInf
  | NaN => NaN
  end.

(** The infinity with the sign of [x], for [x <> 0]. *)
Definition inf_of_sign (x : R) : npfloat :=
  if Rlt_dec 0 x then PInf else NInf.

Definition np_add (a b : npfloat) : npfloat :=
  match a, b with
  | NaN, _ | _, NaN => NaN
  | Fin x, Fin y => Fin (x + y)
  | PInf, NInf | NInf, PInf => NaN
  | PInf, _ | _, PInf => PInf
  | NInf, _ | _, NInf => NInf
  end.

Definition np_sub (a b : npfloat) : npfloat := np_add a (np_neg b).

Definition np_mul (a b : npfloat) : npfloat :=
  match a, b with
  | NaN, _ | _, NaN => NaN
  | Fin x, Fin y => Fin (x * y)
  | Fin x, PInf | PInf, Fin x =>
      if Req_dec_T x 0 then NaN else inf_of_sign x
  | Fin x, NInf | NInf, Fin x =>
      if Req_dec_T x 0 then NaN else inf_of_sign (- x)
  | PInf, PInf | NInf, NInf => PInf
  | PInf, NInf | NInf, PInf => NInf
  end.

(** [a / b] on NumPy values: no exception, a zero divisor gives an infinity
    (NaN for [0 / 0]). *)
Definition np_div (a b : npfloat) : npfloat :=
  match a, b with
  | NaN, _ | _, NaN => NaN
  | Fin x, Fin y =>
      if Req_dec_T y 0
      then (if Req_dec_T x 0 then NaN else inf_of_sign x)
      else Fin (x / y)
  | Fin _, (PInf | NInf) => Fin 0
  | (PInf | NInf), (PInf | NInf) => NaN
  | PInf, Fin y => if Rlt_dec y 0 then NInf else PInf
  | NInf, Fin y => if Rlt_dec y 0 then PInf else NInf
  end.

Definition np_sqrt (a : npfloat) : npfloat :=
  match a with
  | Fin x => if Rlt_dec x 0 then NaN else Fin (sqrt x)
  | PInf => PInf
  | NInf | NaN => NaN
  end.

Definition np_sin (a : npfloat) : npfloat :=
  match a with
  | Fin x => Fin (sin x)
  | _ => NaN
  end.

Definition np_cos (a : npfloat) : npfloat :=
  match a with
  | Fin x => Fin (cos x)
  | _ => NaN
  end.

(** [np.arcsin]: NaN outside [[-1, 1]]. *)
Definition np_arcsin (a : npfloat) : npfloat :=
  match a with
  | Fin x =>
      if Rle_dec (-1) x
      then (if Rle_dec x 1 then Fin (asin x) else NaN)
      else NaN
  | _ => NaN
  end.

(** The angle of the point [(x, y)], in [(-PI, PI]]. *)
Definition atan2 (y x : R) : R :=
  if Rlt_dec 0 x then atan (y / x)
  else if Rlt_dec x 0
       then (if Rle_dec 0 y then atan (y / x) + PI else atan (y / x) - PI)
       else if Rlt_dec 0 y then PI / 2
            else if Rlt_dec y 0 then - (PI / 2) else 0.

Definition np_arctan2 (a b : npfloat) : npfloat :=
  match a, b with
  | NaN, _ | _, NaN => NaN
  | Fin y, Fin x => Fin (atan2 y x)
  | Fin y, PInf => Fin 0
  | Fin y, NInf => if Rlt_dec y 0 then Fin (- PI) else Fin PI
  | PInf, Fin _ => Fin (PI / 2)
  | NInf, Fin _ => Fin (- (PI / 2))
  | PInf, PInf => Fin (PI / 4)
  | PInf, NInf => Fin (3 * PI / 4)
  | NInf, PInf => Fin (- (PI / 4))
  | NInf, NInf => Fin (- (3 * PI / 4))
  end.

(** [np.radians] and [np.degrees]. *)
Definition np_radians (a : npfloat) : npfloat := np_mul a (Fin (PI / 180)).
Definition np_degrees (a : npfloat) : npfloat := np_mul a (Fin (180 / PI)).

(** ** Vectors and matrices of size three *)

Record vec3 (A : Type) : Type := Vec3 { vx : A; vy : A; vz : A }.

Arguments Vec3 {A} vx vy vz.
Arguments vx {A} v.
Arguments vy {A} v.
Arguments vz {A} v.

(** A 3x3 array, by rows. *)
Definition mat3 : Type := vec3 (vec3 R).

Definition identity3 : mat3 :=
  Vec3 (Vec3 1 0 0) (Vec3 0 1 0) (Vec3 0 0 1).

Definition col0 (M : mat3) : vec3 R := Vec3 (vx (vx M)) (vx (vy M)) (vx (vz M)).
Definition col1 (M : mat3) : vec3 R := Vec3 (vy (vx M)) (vy (vy M)) (vy (vz M)).
Definition col2 (M : mat3) : vec3 R := Vec3 (vz (vx M)) (vz (vy M)) (vz (vz M)).

(** [M.T] *)
Definition transpose (M : mat3) : mat3 := Vec3 (col0 M) (col1 M) (col2 M).

Definition dot (u v : vec3 R) : R := vx u * vx v + vy u * vy v + vz u * vz v.

(** [M @ v] *)
Definition mat_vec (M : mat3) (v : vec3 R) : vec3 R :=
  Vec3 (dot (vx M) v) (dot (vy M) v) (dot (vz M) v).

(** [M @ N] *)
Definition mat_mul (M N : mat3) : mat3 :=
  let row r := Vec3 (dot r (col0 N)) (dot r (col1 N)) (dot r (col2 N)) in
  Vec3 (row (vx M)) (row (vy M)) (row (vz M)).

(** [np.linalg.det] *)
Definition det3 (M : mat3) : R :=
  let '(Vec3 (Vec3 a b c) (Vec3 d e f) (Vec3 g h i)) := M in
  a * (e * i - f * h) - b * (d * i - f * g) + c * (d * h - e * g).

Definition adjugate (M : mat3) : mat3 :=
  let '(Vec3 (Vec3 a b c) (Vec3 d e f) (Vec3 g h i)) := M in
  Vec3 (Vec3 (e * i - f * h) (c * h - b * i) (b * f - c * e))
       (Vec3 (f * g - d * i) (a * i - c * g) (c * d - a * f))
       (Vec3 (d * h - e * g) (b * g - a * h) (a * e - b * d)).

Definition vec_scale (k : R) (v : vec3 R) : vec3 R :=
  Vec3 (k * vx v) (k * vy v) (k * vz v).

Definition mat_scale (k : R) (M : mat3) : mat3 :=
  Vec3 (vec_scale k (vx M)) (vec_scale k (vy M)) (vec_scale k (vz M)).

(** The inverse of a matrix whose determinant is not zero. *)
Definition mat_inverse (M : mat3) : mat3 := mat_scale (/ det3 M) (adjugate M).

(** [np.linalg.inv]: raises [LinAlgError] on a singular matrix. *)
Definition np_linalg_inv (M : mat3) : result mat3 :=
  if Req_dec_T (det3 M) 0
  then Raise LinAlgError
  else Ok (mat_inverse M).

(** [v / s] for an array [v] and a NumPy scalar [s], element by element. *)
Definition np_vec_div (v : vec3 R) (s : R) : vec3 npfloat :=
  Vec3 (np_div (Fin (vx v)) (Fin s))
       (np_div (Fin (vy v)) (Fin s))
       (np_div (Fin (vz v)) (Fin s)).

(** ** Python scalar arithmetic *)

(** [a / b] on Python numbers. *)
Definition py_truediv (a b : R) : result R :=
  if Req_dec_T b 0 then Raise ZeroDivisionError else Ok (a / b).

(** [n // 2] on Python integers: the quotient rounded down. *)
Definition py_floordiv2 (n : Z) : Z := (n / 2)%Z.

(** ** [compute_K] *)

(** Lines 3-32.  [focal_length] and [sensor_size] are pairs of numbers (mm),
    [image_size] a pair of integers (pixels). *)
Definition compute_K (focal_length sensor_size : R * R) (image_size : Z * Z)
  : result mat3 :=
  qx <- py_truediv (fst focal_length) (fst sensor_size) ;;
  let f_x := qx * IZR (fst image_size) in
  qy <- py_truediv (snd focal_length) (snd sensor_size) ;;
  let f_y := qy * IZR (snd image_size) in
  let c_x := py_floordiv2 (fst image_size) in
  let c_y := py_floordiv2 (snd image_size) in
  Ok (Vec3 (Vec3 f_x 0 (IZR c_x))
           (Vec3 0 f_y (IZR c_y))
           (Vec3 0 0 1)).

(** The entries of an intrinsics matrix. *)
Definition K_fx (K : mat3) : R := vx (vx K).
Definition K_fy (K : mat3) : R := vy (vy K).
Definition K_cx (K : mat3) : R := vz (vx K).
Definition K_cy (K : mat3) : R := vz (vy K).

(** ** [compute_camera_rotation] *)

(** [np.deg2rad] of a number. *)
Definition deg2rad (alpha : R) : R := alpha * (PI / 180).

(** Lines 35-54.  [alpha] is a number (degrees). *)
Definition compute_camera_rotation (alpha : R) : mat3 :=
  let alpha_rad := deg2rad alpha in
  let cos_alpha := cos alpha_rad in
  let sin_alpha := sin alpha_rad in
  Vec3 (Vec3 cos_alpha 0 sin_alpha)
       (Vec3 0 1 0)
       (Vec3 (- sin_alpha) 0 cos_alpha).

(** ** [compute_object_world_coords] *)

(** The ray [R_tilt.T @ inv(K) @ [x_im, y_im, 1]] before it is scaled. *)
Definition back_projected_ray (object_image_coords : R * R)
  (Kinv R_tilt : mat3) : vec3 R :=
  mat_vec (mat_mul (transpose R_tilt) Kinv)
          (Vec3 (fst object_image_coords) (snd object_image_coords) 1).

(** Lines 57-87: [b = R_tilt.T @ np.linalg.inv(K) @ [x_im, y_im, 1.]], then
    [b = camera_altitude * b / b[-1]], a division of NumPy values. *)
Definition compute_object_world_coords (object_image_coords : R * R)
  (K R_tilt : mat3) (camera_altitude : R) : result (vec3 npfloat) :=
  Kinv <- np_linalg_inv K ;;
  let b := back_projected_ray object_image_coords Kinv R_tilt in
  Ok (np_vec_div (vec_scale camera_altitude b) (vz b)).

(** ** [compute_object_gps_coords] *)

(** The local variables of the function when it reaches its [return]. *)
Record gps_locals : Type := Gps_locals {
  ground_dist : npfloat;
  lat1_rad : npfloat;
  lon1_rad : npfloat;
  bearing_rad : npfloat;
  lat2_rad : npfloat;
  lon2_rad : npfloat;
  lat1 : npfloat;
  lon1 : npfloat
}.

(** Lines 102-124, the body of the function up to its [return].
    [object_world_coords] is the array returned by
    [compute_object_world_coords]; [camera_gps] is a pair of numbers
    (degrees). *)
Definition compute_object_gps_coords_body (object_world_coords : vec3 npfloat)
  (camera_gps : R * R) : gps_locals :=
  let ground_dist :=
    np_sqrt (np_add (np_mul (vx object_world_coords) (vx object_world_coords))
                    (np_mul (vy object_world_coords) (vy object_world_coords))) in
  let '(lat0, lon0) := camera_gps in
  let x_obj := vx object_world_coords in
  let y_obj := vy object_world_coords in
  let lat1_rad := np_radians (Fin lat0) in
  let lon1_rad := np_radians (Fin lon0) in
  let R := Fin 6371000 in
  let bearing_rad := np_arctan2 y_obj x_obj in
  let lat2_rad :=
    np_arcsin
      (np_add (np_mul (np_sin lat1_rad) (np_cos (np_div ground_dist R)))
              (np_mul (np_mul (np_cos lat1_rad) (np_sin (np_div ground_dist R)))
                      (np_cos bearing_rad))) in
  let lon2_rad :=
    np_add lon1_rad
      (np_arctan2
         (np_mul (np_mul (np_sin bearing_rad) (np_sin (np_div ground_dist R)))
                 (np_cos lat1_rad))
         (np_sub (np_cos (np_div ground_dist R))
                 (np_mul (np_sin lat1_rad) (np_sin lat2_rad)))) in
  let lat1 := np_degrees lat1_rad in
  let lon1 := np_degrees lon1_rad in
  Gps_locals ground_dist lat1_rad lon1_rad bearing_rad lat2_rad lon2_rad
    lat1 lon1.

(** Line 126: [return lat1, lon1]. *)
Definition compute_object_gps_coords (object_world_coords : vec3 npfloat)
  (camera_gps : R * R) : npfloat * npfloat :=
  let locals := compute_object_gps_coords_body object_world_coords camera_gps in
  (lat1 locals, lon1 locals).

(** ** The pipeline of [app.py] and [main] *)

(** The four calls made when the form is submitted ([app.py], lines
    104-113; [main], lines 155-170, runs the same calls on fixed values). *)
Definition pipeline (focal_length sensor_size : R * R) (image_size : Z * Z)
  (alpha camera_altitude : R) (object_image_coords camera_gps : R * R)
  : result (npfloat * npfloat) :=
  K <- compute_K focal_length sensor_size image_size ;;
  let R_tilt := compute_camera_rotation alpha in
  object_world_coords <-
    compute_object_world_coords object_image_coords K R_tilt camera_altitude ;;
  Ok (compute_object_gps_coords object_world_coords camera_gps).

(** ** The destination point of the specification *)

(** The spherical direct geodesic as the specification words it: distance
    [d = sqrt (x^2 + y^2)], bearing [theta = atan2 y x], Earth radius
    [R_E = 6371000], and the pair [(lat2, lon2)] in degrees. *)
Definition R_E : R := 6371000.

Definition destination_point (x y lat0 lon0 : R) : R * R :=
  let d := sqrt (x * x + y * y) in
  let theta := atan2 y x in
  let lat1 := lat0 * (PI / 180) in
  let lon1 := lon0 * (PI / 180) in
  let lat2 :=
    asin (sin lat1 * cos (d / R_E) + cos lat1 * sin (d / R_E) * cos theta) in
  let lon2 :=
    lon1 + atan2 (sin theta * sin (d / R_E) * cos lat1)
                 (cos (d / R_E) - sin lat1 * sin lat2) in
  (lat2 * (180 / PI), lon2 * (180 / PI)).

(** ** The floor of the specification *)

(** [floor (n / 2)] for an integer [n], on the reals. *)
Definition floor_half (n : Z) : Z := Zfloor (IZR n / 2).

(** The tilt by a right angle, entry by entry. *)
Definition R_tilt_90 : mat3 :=
  Vec3 (Vec3 0 0 1) (Vec3 0 1 0) (Vec3 (-1) 0 0).

(** ** The camera presets of [app.py] *)

(** Lines 47-55: the default focal lengths and sensor size (mm) that the
    form shows for the option chosen under "Select Camera Type". *)
Definition camera_defaults (camera_type : string) : (R * R) * (R * R) :=
  if String.eqb camera_type "Wide-Angle Camera"
  then ((24, 24), (173 / 10, 13))
  else if String.eqb camera_type "Telephoto Camera"
       then ((162, 162), (64 / 10, 48 / 10))
       else ((50, 50), (15, 15)).

(** * Properties *)

(** ** Results *)

Lemma Ok_inj {A : Type} (a b : A) : Ok a = Ok b -> a = b.
Proof. intros H; injection H; trivial. Qed.

Lemma raises_Raise {A : Type} (e : exn) : raises (@Raise A e).
Proof. exists e; reflexivity. Qed.

Lemma raises_not_Ok {A : Type} (m : result A) (a : A) : raises m -> m <> Ok a.
Proof. intros [e ->]; discriminate. Qed.

(** ** Scalar and NumPy arithmetic *)

Lemma py_truediv_Ok (a b : R) : b <> 0 -> py_truediv a b = Ok (a / b).
Proof.
  intros Hb; unfold py_truediv.
  destruct (Req_dec_T b 0) as [E | _]; [contradiction | reflexivity].
Qed.

Lemma py_truediv_zero (a : R) : py_truediv a 0 = Raise ZeroDivisionError.
Proof.
  unfold py_truediv.
  destruct (Req_dec_T 0 0) as [_ | N]; [reflexivity | now elim N].
Qed.

Lemma np_div_Fin (x y : R) : y <> 0 -> np_div (Fin x) (Fin y) = Fin (x / y).
Proof.
  intros Hy; simpl.
  destruct (Req_dec_T y 0) as [E | _]; [contradiction | reflexivity].
Qed.

Lemma np_div_zero_zero : np_div (Fin 0) (Fin 0) = NaN.
Proof.
  simpl. destruct (Req_dec_T 0 0) as [_ | N]; [reflexivity | now elim N].
Qed.

Lemma np_div_by_zero (x : R) :
  np_div (Fin x) (Fin 0) = NaN \/ is_inf (np_div (Fin x) (Fin 0)).
Proof.
  simpl. destruct (Req_dec_T 0 0) as [_ | N]; [ | now elim N].
  destruct (Req_dec_T x 0) as [_ | _]; [now left | right].
  unfold inf_of_sign; destruct (Rlt_dec 0 x); exact I.
Qed.

Lemma np_div_neg_by_zero (x : R) : x < 0 -> np_div (Fin x) (Fin 0) = NInf.
Proof.
  intros Hx; simpl.
  destruct (Req_dec_T 0 0) as [_ | N]; [ | now elim N].
  destruct (Req_dec_T x 0) as [E | _]; [lra | ].
  unfold inf_of_sign; destruct (Rlt_dec 0 x); [lra | reflexivity].
Qed.

Lemma PI_neq0' : PI <> 0.
Proof. pose proof PI_RGT_0; lra. Qed.

Lemma np_degrees_radians (x : R) : np_degrees (np_radians (Fin x)) = Fin x.
Proof.
  unfold np_degrees, np_radians; simpl.
  f_equal. field. exact PI_neq0'.
Qed.

(** [n // 2] is the floor of the real quotient. *)
Lemma py_floordiv2_floor (n : Z) : py_floordiv2 n = floor_half n.
Proof.
  unfold py_floordiv2, floor_half. symmetry. apply Zfloor_eq.
  pose proof (Z.div_mod n 2 ltac:(lia)) as Hdm.
  pose proof (Z.mod_pos_bound n 2 ltac:(lia)) as Hb.
  assert (Hn : IZR n = 2 * IZR (n / 2) + IZR (n mod 2)).
  { rewrite Hdm at 1. rewrite plus_IZR, mult_IZR. reflexivity. }
  assert (H0 : 0 <= IZR (n mod 2)) by (apply IZR_le; lia).
  assert (H1 : IZR (n mod 2) <= 1) by (apply IZR_le; lia).
  lra.
Qed.

(** ** Matrices *)

Lemma vec3_eq {A : Type} (a b c a' b' c' : A) :
  a = a' -> b = b' -> c = c' -> Vec3 a b c = Vec3 a' b' c'.
Proof. intros -> -> ->; reflexivity. Qed.

Ltac mat_eq := repeat apply vec3_eq; simpl.

Lemma np_linalg_inv_Ok (M : mat3) :
  det3 M <> 0 -> np_linalg_inv M = Ok (mat_inverse M).
Proof.
  intros Hd; unfold np_linalg_inv.
  destruct (Req_dec_T (det3 M) 0) as [E | _]; [contradiction | reflexivity].
Qed.

Lemma np_linalg_inv_singular (M : mat3) :
  det3 M = 0 -> np_linalg_inv M = Raise LinAlgError.
Proof.
  intros Hd; unfold np_linalg_inv.
  destruct (Req_dec_T (det3 M) 0) as [_ | N]; [reflexivity | contradiction].
Qed.

(** What [np.linalg.inv] returns is the inverse, on both sides. *)
Lemma np_linalg_inv_sound (M Minv : mat3) :
  np_linalg_inv M = Ok Minv ->
  mat_mul M Minv = identity3 /\ mat_mul Minv M = identity3.
Proof.
  unfold np_linalg_inv.
  destruct (Req_dec_T (det3 M) 0) as [E | Hd]; [discriminate | ].
  intros H; apply Ok_inj in H; subst Minv.
  destruct M as [[a b c] [d e f] [g h i]].
  unfold mat_inverse, identity3, mat_mul, mat_scale, vec_scale, dot,
    col0, col1, col2 in *; simpl in *.
  split; mat_eq; field; exact Hd.
Qed.

Lemma det3_identity : det3 identity3 = 1.
Proof. simpl; ring. Qed.

Lemma mat_inverse_identity : mat_inverse identity3 = identity3.
Proof.
  unfold mat_inverse, identity3, mat_scale, vec_scale; simpl.
  mat_eq; field.
Qed.

Lemma transpose_involutive (M : mat3) : transpose (transpose M) = M.
Proof. destruct M as [[a b c] [d e f] [g h i]]; reflexivity. Qed.

(** ** [compute_K] *)

Lemma compute_K_Ok (focal_length sensor_size : R * R) (image_size : Z * Z) :
  fst sensor_size <> 0 -> snd sensor_size <> 0 ->
  compute_K focal_length sensor_size image_size =
  Ok (Vec3 (Vec3 (fst focal_length / fst sensor_size * IZR (fst image_size)) 0
                 (IZR (py_floordiv2 (fst image_size))))
           (Vec3 0 (snd focal_length / snd sensor_size * IZR (snd image_size))
                 (IZR (py_floordiv2 (snd image_size))))
           (Vec3 0 0 1)).
Proof.
  intros Hw Hh; unfold compute_K.
  rewrite (py_truediv_Ok _ _ Hw); simpl.
  rewrite (py_truediv_Ok _ _ Hh); reflexivity.
Qed.

Lemma compute_K_zero_sensor (focal_length sensor_size : R * R)
  (image_size : Z * Z) :
  fst sensor_size = 0 \/ snd sensor_size = 0 ->
  compute_K focal_length sensor_size image_size = Raise ZeroDivisionError.
Proof.
  intros H; unfold compute_K.
  destruct (Req_dec_T (fst sensor_size) 0) as [E | N].
  - rewrite E, py_truediv_zero; reflexivity.
  - rewrite (py_truediv_Ok _ _ N); simpl.
    destruct H as [E | E]; [contradiction | ].
    rewrite E, py_truediv_zero; reflexivity.
Qed.

(** The determinant of an intrinsics matrix is [f_x * f_y]. *)
Lemma det3_intrinsics (f_x f_y c_x c_y : R) :
  det3 (Vec3 (Vec3 f_x 0 c_x) (Vec3 0 f_y c_y) (Vec3 0 0 1)) = f_x * f_y.
Proof. simpl; ring. Qed.

(** C6: for a sensor size and an image size with positive entries,
    [compute_K] returns the matrix [[f_x, 0, c_x], [0, f_y, c_y], [0, 0, 1]]
    with [f_x = f_x_mm / w_mm * W_px], [f_y = f_y_mm / h_mm * H_px],
    [c_x = floor (W_px / 2)] and [c_y = floor (H_px / 2)]. *)
Theorem compute_K_intrinsics (f_x_mm f_y_mm w_mm h_mm : R) (W_px H_px : Z) :
  0 < w_mm -> 0 < h_mm -> (0 < W_px)%Z -> (0 < H_px)%Z ->
  compute_K (f_x_mm, f_y_mm) (w_mm, h_mm) (W_px, H_px) =
  Ok (Vec3 (Vec3 (f_x_mm / w_mm * IZR W_px) 0 (IZR (floor_half W_px)))
           (Vec3 0 (f_y_mm / h_mm * IZR H_px) (IZR (floor_half H_px)))
           (Vec3 0 0 1)).
Proof.
  intros Hw Hh _ _.
  rewrite compute_K_Ok by (simpl; lra).
  rewrite !py_floordiv2_floor; reflexivity.
Qed.

Lemma compute_K_intrinsics_witness :
  compute_K (50, 50) (15, 15) (3840, 2160)%Z =
  Ok (Vec3 (Vec3 (50 / 15 * IZR 3840) 0 (IZR (floor_half 3840)))
           (Vec3 0 (50 / 15 * IZR 2160) (IZR (floor_half 2160)))
           (Vec3 0 0 1)).
Proof.
  apply (compute_K_intrinsics 50 50 15 15 3840 2160); try lra; lia.
Defined.

(** The principal point of a 3840 x 2160 image is (1920, 1080). *)
Example floor_half_3840 : floor_half 3840 = 1920%Z /\ floor_half 2160 = 1080%Z.
Proof. rewrite <- !py_floordiv2_floor; split; reflexivity. Qed.

(** Scaling the focal lengths and the sensor by one factor keeps [f_x] and
    [f_y]. *)
Lemma compute_K_same_factor (k f1 f2 w h : R) (W H : Z) :
  k <> 0 -> w <> 0 -> h <> 0 ->
  compute_K (k * f1, k * f2) (k * w, k * h) (W, H) =
  compute_K (f1, f2) (w, h) (W, H).
Proof.
  intros Hk Hw Hh.
  rewrite !compute_K_Ok by (simpl; auto using Rmult_integral_contrapositive_currified).
  simpl. f_equal. mat_eq; trivial; field; auto.
Qed.

(** C8, as amended: doubling the sensor dimensions while halving the focal
    lengths divides [f_x] and [f_y] by four (and keeps the principal
    point). *)
Theorem compute_K_half_focal_double_sensor (f1 f2 w h : R) (W H : Z) :
  0 < f1 -> 0 < f2 -> 0 < w -> 0 < h -> (0 < W)%Z -> (0 < H)%Z ->
  exists K K',
    compute_K (f1, f2) (w, h) (W, H) = Ok K /\
    compute_K (f1 / 2, f2 / 2) (2 * w, 2 * h) (W, H) = Ok K' /\
    K_fx K' = K_fx K / 4 /\ K_fy K' = K_fy K / 4 /\
    K_cx K' = K_cx K /\ K_cy K' = K_cy K.
Proof.
  intros _ _ Hw Hh _ _.
  eexists; eexists.
  split; [apply compute_K_Ok; simpl; lra | ].
  split; [apply compute_K_Ok; simpl; lra | ].
  unfold K_fx, K_fy, K_cx, K_cy; simpl.
  repeat split; field; lra.
Qed.

Lemma compute_K_half_focal_double_sensor_witness :
  exists K K',
    compute_K (50, 50) (15, 15) (3840, 2160)%Z = Ok K /\
    compute_K (50 / 2, 50 / 2) (2 * 15, 2 * 15) (3840, 2160)%Z = Ok K' /\
    K_fx K' = K_fx K / 4 /\ K_fy K' = K_fy K / 4 /\
    K_cx K' = K_cx K /\ K_cy K' = K_cy K.
Proof.
  apply (compute_K_half_focal_double_sensor 50 50 15 15 3840 2160);
    try lra; lia.
Defined.

(** C8, as stated, fails: with the focal lengths (50, 50), the sensor
    (15, 15) and a 3840 x 2160 image, [f_x] is 12800 and [f_y] is 7200;
    with the focal lengths halved and the sensor doubled they are 3200 and
    1800. *)
Lemma compute_K_rescaling_counterexample :
  exists K K',
    compute_K (50, 50) (15, 15) (3840, 2160)%Z = Ok K /\
    compute_K (50 / 2, 50 / 2) (2 * 15, 2 * 15) (3840, 2160)%Z = Ok K' /\
    K_fx K = 12800 /\ K_fy K = 7200 /\
    K_fx K' = 3200 /\ K_fy K' = 1800 /\
    K_fx K' < K_fx K /\ K_fy K' < K_fy K.
Proof.
  eexists; eexists.
  split; [apply compute_K_Ok; simpl; lra | ].
  split; [apply compute_K_Ok; simpl; lra | ].
  unfold K_fx, K_fy; simpl.
  repeat split; lra.
Qed.

(** ** [compute_camera_rotation] *)

Lemma deg2rad_0 : deg2rad 0 = 0.
Proof. unfold deg2rad; ring. Qed.

Lemma deg2rad_90 : deg2rad 90 = PI / 2.
Proof. unfold deg2rad; field. Qed.

Lemma compute_camera_rotation_0 : compute_camera_rotation 0 = identity3.
Proof.
  unfold compute_camera_rotation, identity3.
  rewrite deg2rad_0, cos_0, sin_0, Ropp_0; reflexivity.
Qed.

Lemma compute_camera_rotation_90 : compute_camera_rotation 90 = R_tilt_90.
Proof.
  unfold compute_camera_rotation, R_tilt_90.
  rewrite deg2rad_90, cos_PI2, sin_PI2; reflexivity.
Qed.

Lemma sin_sq_cos_sq (x : R) : sin x * sin x + cos x * cos x = 1.
Proof. exact (sin2_cos2 x). Qed.

(** C7: for every [alpha], the matrix of [compute_camera_rotation] times
    its transpose is the identity, and its determinant is 1. *)
Theorem compute_camera_rotation_orthonormal (alpha : R) :
  mat_mul (compute_camera_rotation alpha)
          (transpose (compute_camera_rotation alpha)) = identity3 /\
  det3 (compute_camera_rotation alpha) = 1.
Proof.
  unfold compute_camera_rotation.
  set (t := deg2rad alpha).
  pose proof (sin_sq_cos_sq t) as Hsc.
  split.
  - unfold mat_mul, transpose, identity3, dot, col0, col1, col2; simpl.
    mat_eq; try ring; lra.
  - simpl. lra.
Qed.

(** The transpose inverts the tilt on the other side too. *)
Lemma compute_camera_rotation_transpose_left (alpha : R) :
  mat_mul (transpose (compute_camera_rotation alpha))
          (compute_camera_rotation alpha) = identity3.
Proof.
  unfold compute_camera_rotation.
  set (t := deg2rad alpha).
  pose proof (sin_sq_cos_sq t) as Hsc.
  unfold mat_mul, transpose, identity3, dot, col0, col1, col2; simpl.
  mat_eq; try ring; lra.
Qed.

(** ** [compute_object_world_coords] *)

Lemma compute_object_world_coords_Ok (object_image_coords : R * R)
  (K R_tilt : mat3) (camera_altitude : R) :
  det3 K <> 0 ->
  compute_object_world_coords object_image_coords K R_tilt camera_altitude =
  let b := back_projected_ray object_image_coords (mat_inverse K) R_tilt in
  Ok (np_vec_div (vec_scale camera_altitude b) (vz b)).
Proof.
  intros Hd; unfold compute_object_world_coords.
  rewrite (np_linalg_inv_Ok _ Hd); reflexivity.
Qed.

Lemma compute_object_world_coords_singular (object_image_coords : R * R)
  (K R_tilt : mat3) (camera_altitude : R) :
  det3 K = 0 ->
  compute_object_world_coords object_image_coords K R_tilt camera_altitude =
  Raise LinAlgError.
Proof.
  intros Hd; unfold compute_object_world_coords.
  rewrite (np_linalg_inv_singular _ Hd); reflexivity.
Qed.

(** C5: when [K] is invertible and the third component of the ray
    [b = R_tilt.T @ inv(K) @ [x_im, y_im, 1]] is not zero,
    [compute_object_world_coords] returns an array whose third coordinate is
    [camera_altitude]. *)
Theorem world_coords_third_is_altitude (object_image_coords : R * R)
  (K R_tilt : mat3) (camera_altitude : R) :
  det3 K <> 0 ->
  vz (back_projected_ray object_image_coords (mat_inverse K) R_tilt) <> 0 ->
  exists w,
    compute_object_world_coords object_image_coords K R_tilt camera_altitude
    = Ok w /\
    vz w = Fin camera_altitude.
Proof.
  intros Hd Hb.
  rewrite (compute_object_world_coords_Ok _ _ _ _ Hd); cbv zeta.
  eexists; split; [reflexivity | ].
  unfold np_vec_div, vec_scale; cbn [vz vx vy].
  rewrite (np_div_Fin _ _ Hb). f_equal. field. exact Hb.
Qed.

(** A camera with intrinsics [f_x, f_y, c_x, c_y] and no tilt. *)
Section NoTilt.

Variables f_x f_y c_x c_y : R.
Hypothesis f_x_nonzero : f_x <> 0.
Hypothesis f_y_nonzero : f_y <> 0.

(** The ray through the pixel [(x, y)]. *)
Lemma back_projected_ray_no_tilt (x y : R) :
  back_projected_ray (x, y)
    (mat_inverse (Vec3 (Vec3 f_x 0 c_x) (Vec3 0 f_y c_y) (Vec3 0 0 1)))
    identity3
  = Vec3 ((x - c_x) / f_x) ((y - c_y) / f_y) 1.
Proof.
  unfold back_projected_ray, mat_inverse, mat_vec, mat_mul, transpose,
    mat_scale, vec_scale, identity3, dot, col0, col1, col2; simpl.
  mat_eq; field; auto.
Qed.

(** The point of the ground under the pixel [(x, y)]. *)
Lemma world_coords_no_tilt (x y camera_altitude : R) :
  compute_object_world_coords (x, y)
    (Vec3 (Vec3 f_x 0 c_x) (Vec3 0 f_y c_y) (Vec3 0 0 1))
    identity3 camera_altitude
  = Ok (Vec3 (Fin (camera_altitude * ((x - c_x) / f_x)))
             (Fin (camera_altitude * ((y - c_y) / f_y)))
             (Fin camera_altitude)).
Proof.
  rewrite compute_object_world_coords_Ok
    by (rewrite det3_intrinsics; apply Rmult_integral_contrapositive_currified;
        assumption).
  cbv zeta. rewrite back_projected_ray_no_tilt.
  unfold np_vec_div, vec_scale; cbn [vx vy vz].
  rewrite !np_div_Fin by lra.
  f_equal. mat_eq; f_equal; field; assumption.
Qed.

End NoTilt.

Lemma world_coords_third_is_altitude_witness :
  exists w,
    compute_object_world_coords (2000, 1000)
      (Vec3 (Vec3 12800 0 1920) (Vec3 0 7200 1080) (Vec3 0 0 1)) identity3 3
    = Ok w /\
    vz w = Fin 3.
Proof.
  apply (world_coords_third_is_altitude (2000, 1000)
           (Vec3 (Vec3 12800 0 1920) (Vec3 0 7200 1080) (Vec3 0 0 1))
           identity3 3).
  - rewrite det3_intrinsics; lra.
  - rewrite back_projected_ray_no_tilt by lra. simpl; lra.
Defined.

(** C10: for positive focal lengths, sensor and image dimensions and a
    positive altitude, the pixel at the principal point [(c_x, c_y)] of
    the matrix of [compute_K], with no tilt ([alpha = 0]), is sent by
    [compute_object_world_coords] to a point whose first and second
    coordinates are 0 (and whose third is the altitude). *)
Theorem principal_point_projects_to_origin
  (focal_length sensor_size : R * R) (image_size : Z * Z)
  (camera_altitude : R) :
  0 < fst focal_length -> 0 < snd focal_length ->
  0 < fst sensor_size -> 0 < snd sensor_size ->
  (0 < fst image_size)%Z -> (0 < snd image_size)%Z ->
  0 < camera_altitude ->
  exists K,
    compute_K focal_length sensor_size image_size = Ok K /\
    compute_object_world_coords (K_cx K, K_cy K) K
      (compute_camera_rotation 0) camera_altitude
    = Ok (Vec3 (Fin 0) (Fin 0) (Fin camera_altitude)).
Proof.
  intros Hf1 Hf2 Hw Hh HW HH _.
  destruct focal_length as [f1 f2], sensor_size as [w h],
    image_size as [W H]; simpl in *.
  assert (HWr : 0 < IZR W) by (apply IZR_lt; exact HW).
  assert (HHr : 0 < IZR H) by (apply IZR_lt; exact HH).
  assert (Hfx : 0 < f1 / w * IZR W).
  { apply Rmult_lt_0_compat; [apply Rdiv_lt_0_compat | ]; assumption. }
  assert (Hfy : 0 < f2 / h * IZR H).
  { apply Rmult_lt_0_compat; [apply Rdiv_lt_0_compat | ]; assumption. }
  eexists; split; [apply compute_K_Ok; simpl; lra | ].
  simpl fst; simpl snd. unfold K_cx, K_cy; cbn [vx vy vz].
  rewrite compute_camera_rotation_0, world_coords_no_tilt by lra.
  f_equal. mat_eq; f_equal; field; lra.
Qed.

Lemma principal_point_projects_to_origin_witness :
  exists K,
    compute_K (50, 50) (15, 15) (3840, 2160)%Z = Ok K /\
    compute_object_world_coords (K_cx K, K_cy K) K
      (compute_camera_rotation 0) 3
    = Ok (Vec3 (Fin 0) (Fin 0) (Fin 3)).
Proof.
  apply (principal_point_projects_to_origin (50, 50) (15, 15)
           (3840, 2160)%Z 3); simpl; try lra; lia.
Defined.

(** C3, as amended: when [K] is invertible and the third component of the
    ray [b] is zero, [compute_object_world_coords] raises nothing: it
    returns an array whose third coordinate is NaN and whose first and
    second coordinates are NaN or an infinity. *)
Theorem horizon_returns_nan (object_image_coords : R * R)
  (K R_tilt : mat3) (camera_altitude : R) :
  det3 K <> 0 ->
  vz (back_projected_ray object_image_coords (mat_inverse K) R_tilt) = 0 ->
  exists w,
    compute_object_world_coords object_image_coords K R_tilt camera_altitude
    = Ok w /\
    vz w = NaN /\
    (vx w = NaN \/ is_inf (vx w)) /\
    (vy w = NaN \/ is_inf (vy w)).
Proof.
  intros Hd Hb.
  rewrite (compute_object_world_coords_Ok _ _ _ _ Hd); cbv zeta.
  eexists; split; [reflexivity | ].
  unfold np_vec_div, vec_scale; cbn [vz vx vy].
  rewrite Hb, Rmult_0_r.
  split; [exact np_div_zero_zero | ].
  split; apply np_div_by_zero.
Qed.

Lemma back_projected_ray_horizon :
  back_projected_ray (0, 0) (mat_inverse identity3) R_tilt_90
  = Vec3 (-1) 0 0.
Proof.
  rewrite mat_inverse_identity.
  unfold back_projected_ray, mat_vec, mat_mul, transpose, R_tilt_90,
    identity3, dot, col0, col1, col2; simpl.
  mat_eq; ring.
Qed.

Lemma horizon_returns_nan_witness :
  exists w,
    compute_object_world_coords (0, 0) identity3 R_tilt_90 3 = Ok w /\
    vz w = NaN /\
    (vx w = NaN \/ is_inf (vx w)) /\
    (vy w = NaN \/ is_inf (vy w)).
Proof.
  apply (horizon_returns_nan (0, 0) identity3 R_tilt_90 3).
  - rewrite det3_identity; lra.
  - rewrite back_projected_ray_horizon; reflexivity.
Defined.

(** C3, as stated, fails: with [K] the identity, the tilt by a right angle
    and the pixel (0, 0), the ray is [(-1, 0, 0)], its third component is
    zero, and [compute_object_world_coords] at altitude 3 returns
    [(-inf, nan, nan)] and raises nothing. *)
Lemma horizon_counterexample :
  vz (back_projected_ray (0, 0) (mat_inverse identity3) R_tilt_90) = 0 /\
  compute_object_world_coords (0, 0) identity3 R_tilt_90 3
  = Ok (Vec3 NInf NaN NaN).
Proof.
  split; [rewrite back_projected_ray_horizon; reflexivity | ].
  rewrite compute_object_world_coords_Ok by (rewrite det3_identity; lra).
  cbv zeta. rewrite back_projected_ray_horizon.
  unfold np_vec_div, vec_scale; cbn [vx vy vz].
  rewrite Rmult_0_r, np_div_zero_zero.
  rewrite np_div_neg_by_zero by lra. reflexivity.
Qed.

(** ** [compute_object_gps_coords] *)

(** What the function returns: the camera's coordinates, turned to radians
    and back. *)
Lemma compute_object_gps_coords_unfold (object_world_coords : vec3 npfloat)
  (lat0 lon0 : R) :
  compute_object_gps_coords object_world_coords (lat0, lon0) =
  (np_degrees (np_radians (Fin lat0)), np_degrees (np_radians (Fin lon0))).
Proof. reflexivity. Qed.

Lemma compute_object_gps_coords_camera (object_world_coords : vec3 npfloat)
  (lat0 lon0 : R) :
  compute_object_gps_coords object_world_coords (lat0, lon0) =
  (Fin lat0, Fin lon0).
Proof.
  rewrite compute_object_gps_coords_unfold, !np_degrees_radians; reflexivity.
Qed.

(** C2: the pair returned by [compute_object_gps_coords] is the same for
    any two world offsets; it is the camera's latitude and longitude after
    the conversion to radians and back to degrees. *)
Theorem gps_coords_independent_of_world_coords (w w' : vec3 npfloat)
  (lat0 lon0 : R) :
  compute_object_gps_coords w (lat0, lon0) =
  compute_object_gps_coords w' (lat0, lon0) /\
  compute_object_gps_coords w (lat0, lon0) =
  (np_degrees (np_radians (Fin lat0)), np_degrees (np_radians (Fin lon0))).
Proof.
  rewrite !compute_object_gps_coords_unfold; split; reflexivity.
Qed.

(** C9: for every [z], [compute_object_gps_coords] applied to the world
    offset [(0, 0, z)] returns the camera's own coordinates. *)
Theorem gps_coords_zero_distance (z : npfloat) (lat0 lon0 : R) :
  compute_object_gps_coords (Vec3 (Fin 0) (Fin 0) z) (lat0, lon0) =
  (Fin lat0, Fin lon0).
Proof. apply compute_object_gps_coords_camera. Qed.

(** ** The destination point *)

Lemma atan2_pos (y x : R) : 0 < x -> atan2 y x = atan (y / x).
Proof.
  intros Hx; unfold atan2.
  destruct (Rlt_dec 0 x) as [_ | N]; [reflexivity | contradiction].
Qed.

Example atan2_quadrants :
  atan2 0 1 = 0 /\ atan2 1 1 = PI / 4 /\ atan2 1 0 = PI / 2 /\
  atan2 0 (-1) = PI /\ atan2 (-1) 0 = - (PI / 2) /\ atan2 0 0 = 0.
Proof.
  unfold atan2.
  repeat match goal with
         | |- context [Rlt_dec ?a ?b] => destruct (Rlt_dec a b); try lra
         | |- context [Rle_dec ?a ?b] => destruct (Rle_dec a b); try lra
         end.
  replace (0 / 1) with 0 by field. replace (1 / 1) with 1 by field.
  replace (0 / -1) with 0 by field.
  rewrite atan_0, atan_1. repeat split; lra.
Qed.

Lemma atan2_0_pos (x : R) : 0 < x -> atan2 0 x = 0.
Proof.
  intros Hx. rewrite (atan2_pos _ _ Hx).
  unfold Rdiv; rewrite Rmult_0_l; exact atan_0.
Qed.

Lemma np_sqrt_Fin (v : R) : 0 <= v -> np_sqrt (Fin v) = Fin (sqrt v).
Proof.
  intros Hv; simpl. destruct (Rlt_dec v 0) as [N | _]; [lra | reflexivity].
Qed.

Lemma np_arcsin_Fin (v : R) : -1 <= v <= 1 -> np_arcsin (Fin v) = Fin (asin v).
Proof.
  intros [Hl Hu]; simpl.
  destruct (Rle_dec (-1) v) as [_ | N]; [ | contradiction].
  destruct (Rle_dec v 1) as [_ | N]; [reflexivity | contradiction].
Qed.

(** The argument of the arc sine in the latitude formula is a sine: it
    lies between -1 and 1. *)
Lemma latitude_sine_bound (l delta theta : R) :
  -1 <= sin l * cos delta + cos l * sin delta * cos theta <= 1.
Proof.
  pose proof (sin_sq_cos_sq l) as Hl.
  pose proof (sin_sq_cos_sq delta) as Hd.
  pose proof (COS_bound theta) as [Ht1 Ht2].
  set (a := sin l) in *; set (b := cos l) in *.
  set (c := cos delta) in *; set (s := sin delta) in *.
  set (t := cos theta) in *.
  assert (Hsq : (a * c + b * s * t) * (a * c + b * s * t) <= 1).
  { assert (H1 : (a * c + b * s * t) * (a * c + b * s * t)
                 + (a * s - b * t * c) * (a * s - b * t * c)
                 = (a * a + b * b * (t * t)) * (s * s + c * c)) by ring.
    assert (H2 : 0 <= (a * s - b * t * c) * (a * s - b * t * c))
      by apply Rle_0_sqr.
    assert (H3 : t * t <= 1) by nra.
    assert (H4 : 0 <= b * b) by apply Rle_0_sqr.
    rewrite Hd, Rmult_1_r in H1. nra. }
  split; nra.
Qed.

(** On a world offset with finite first and second coordinates, the values
    bound to [lat2_rad] and [lon2_rad], turned to degrees, are the
    destination point. *)
Lemma body_computes_destination (x y : R) (z : npfloat) (lat0 lon0 : R) :
  let locals :=
    compute_object_gps_coords_body (Vec3 (Fin x) (Fin y) z) (lat0, lon0) in
  (np_degrees (lat2_rad locals), np_degrees (lon2_rad locals)) =
  (Fin (fst (destination_point x y lat0 lon0)),
   Fin (snd (destination_point x y lat0 lon0))).
Proof.
  assert (Hsq : 0 <= x * x + y * y)
    by (pose proof (Rle_0_sqr x); pose proof (Rle_0_sqr y);
        unfold Rsqr in *; lra).
  unfold compute_object_gps_coords_body, destination_point; cbv zeta.
  cbn [lat2_rad lon2_rad vx vy fst snd].
  unfold np_radians, np_degrees.
  cbn [np_mul np_add].
  rewrite (np_sqrt_Fin _ Hsq).
  rewrite np_div_Fin by lra.
  cbn [np_sin np_cos np_arctan2 np_mul np_add].
  rewrite np_arcsin_Fin by apply latitude_sine_bound.
  cbn [np_sin np_cos np_arctan2 np_mul np_add np_sub np_neg].
  unfold R_E, Rminus. reflexivity.
Qed.

(** An object [x] metres along the first axis of a camera on the equator,
    for [x] up to a quarter of a great circle: the destination is at
    latitude [x / R_E] radians. *)
Lemma destination_point_along_x (x : R) :
  0 < x -> x / R_E < PI / 2 ->
  destination_point x 0 0 0 = (x / R_E * (180 / PI), 0).
Proof.
  intros Hx Hq.
  assert (HR : 0 < R_E) by (unfold R_E; lra).
  assert (Hd : 0 < x / R_E) by (apply Rdiv_lt_0_compat; assumption).
  unfold destination_point; cbv zeta.
  replace (x * x + 0 * 0) with (x * x) by ring.
  rewrite sqrt_square by lra.
  rewrite (atan2_0_pos x Hx), !Rmult_0_l, sin_0, cos_0.
  replace (0 * cos (x / R_E) + 1 * sin (x / R_E) * 1) with (sin (x / R_E))
    by ring.
  rewrite asin_sin by lra.
  replace (0 * sin (x / R_E) * 1) with 0 by ring.
  replace (cos (x / R_E) - 0 * sin (x / R_E)) with (cos (x / R_E)) by ring.
  rewrite atan2_0_pos by (apply cos_gt_0; lra).
  f_equal; ring.
Qed.

(** C1 fails on the code.  For the world offset [(1000, 0, 3)] and the
    camera at [(0, 0)], [compute_object_gps_coords] returns [(0, 0)], the
    camera's coordinates.  The destination point of the geodesic is at
    latitude [1000 / 6371000] radians, which is not 0; the function has
    that latitude in [lat2_rad] and does not return it. *)
Theorem gps_coords_not_destination :
  compute_object_gps_coords (Vec3 (Fin 1000) (Fin 0) (Fin 3)) (0, 0)
  = (Fin 0, Fin 0) /\
  destination_point 1000 0 0 0 = (1000 / R_E * (180 / PI), 0) /\
  0 < 1000 / R_E * (180 / PI) /\
  np_degrees
    (lat2_rad
       (compute_object_gps_coords_body (Vec3 (Fin 1000) (Fin 0) (Fin 3)) (0, 0)))
  = Fin (1000 / R_E * (180 / PI)).
Proof.
  pose proof PI_RGT_0 as Hpi. pose proof PI2_1 as Hpi2.
  assert (Hq : 1000 / R_E < PI / 2) by (unfold R_E; lra).
  assert (Hd : destination_point 1000 0 0 0 = (1000 / R_E * (180 / PI), 0))
    by (apply destination_point_along_x; [lra | exact Hq]).
  split; [apply compute_object_gps_coords_camera | ].
  split; [exact Hd | ].
  split.
  - apply Rmult_lt_0_compat; [unfold R_E; lra | ].
    apply Rdiv_lt_0_compat; lra.
  - pose proof (body_computes_destination 1000 0 (Fin 3) 0 0) as Hb.
    cbv zeta in Hb. rewrite Hd in Hb.
    injection Hb as Hlat _. exact Hlat.
Qed.

(** ** The pipeline *)

(** With nonzero sensor dimensions the pipeline goes on to
    [compute_object_world_coords] with the matrix of [compute_K]. *)
Lemma pipeline_after_compute_K (focal_length sensor_size : R * R)
  (image_size : Z * Z) (alpha camera_altitude : R)
  (object_image_coords camera_gps : R * R) (K : mat3) :
  compute_K focal_length sensor_size image_size = Ok K ->
  pipeline focal_length sensor_size image_size alpha camera_altitude
    object_image_coords camera_gps =
  (object_world_coords <-
     compute_object_world_coords object_image_coords K
       (compute_camera_rotation alpha) camera_altitude ;;
   Ok (compute_object_gps_coords object_world_coords camera_gps)).
Proof. intros HK; unfold pipeline; rewrite HK; reflexivity. Qed.

(** C4, as amended: when a sensor dimension or an image dimension is zero
    the pipeline raises and returns no result: [ZeroDivisionError], from
    [compute_K], for a zero sensor dimension, and otherwise [LinAlgError],
    from the inversion of [K], for a zero image dimension; and [compute_K]
    with a zero sensor dimension raises [ZeroDivisionError] rather than
    returning a matrix. *)
Theorem zero_dimension_raises (focal_length sensor_size : R * R)
  (image_size : Z * Z) (alpha camera_altitude : R)
  (object_image_coords camera_gps : R * R) :
  fst sensor_size = 0 \/ snd sensor_size = 0 \/
  fst image_size = 0%Z \/ snd image_size = 0%Z ->
  raises (pipeline focal_length sensor_size image_size alpha camera_altitude
            object_image_coords camera_gps) /\
  (fst sensor_size = 0 \/ snd sensor_size = 0 ->
   compute_K focal_length sensor_size image_size = Raise ZeroDivisionError /\
   pipeline focal_length sensor_size image_size alpha camera_altitude
     object_image_coords camera_gps = Raise ZeroDivisionError) /\
  (fst sensor_size <> 0 -> snd sensor_size <> 0 ->
   pipeline focal_length sensor_size image_size alpha camera_altitude
     object_image_coords camera_gps = Raise LinAlgError).
Proof.
  intros H.
  assert (HZ : fst sensor_size = 0 \/ snd sensor_size = 0 ->
               pipeline focal_length sensor_size image_size alpha
                 camera_altitude object_image_coords camera_gps
               = Raise ZeroDivisionError).
  { intros E; unfold pipeline.
    rewrite (compute_K_zero_sensor _ _ _ E); reflexivity. }
  assert (HL : fst sensor_size <> 0 -> snd sensor_size <> 0 ->
               pipeline focal_length sensor_size image_size alpha
                 camera_altitude object_image_coords camera_gps
               = Raise LinAlgError).
  { intros Nw Nh.
    rewrite (pipeline_after_compute_K _ _ _ _ _ _ _ _
               (compute_K_Ok focal_length _ image_size Nw Nh)).
    rewrite compute_object_world_coords_singular; [reflexivity | ].
    rewrite det3_intrinsics.
    destruct H as [E | [E | [E | E]]]; try contradiction; rewrite E; ring. }
  split; [ | split; [ | exact HL]].
  - destruct (Req_dec_T (fst sensor_size) 0) as [Ew | Nw];
      [rewrite HZ by (left; exact Ew); apply raises_Raise | ].
    destruct (Req_dec_T (snd sensor_size) 0) as [Eh | Nh];
      [rewrite HZ by (right; exact Eh); apply raises_Raise | ].
    rewrite (HL Nw Nh); apply raises_Raise.
  - intros E; split; [apply compute_K_zero_sensor; exact E | exact (HZ E)].
Qed.

Lemma zero_dimension_raises_witness :
  raises (pipeline (50, 50) (15, 15) (0, 2160)%Z 45 3 (2000, 1000)
            (377749 / 10000, - (1224194 / 10000))) /\
  pipeline (50, 50) (15, 15) (0, 2160)%Z 45 3 (2000, 1000)
    (377749 / 10000, - (1224194 / 10000)) = Raise LinAlgError.
Proof.
  pose proof (zero_dimension_raises (50, 50) (15, 15) (0, 2160)%Z 45 3
                (2000, 1000) (377749 / 10000, - (1224194 / 10000))
                (or_intror (or_intror (or_introl eq_refl)))) as [Hr [_ HL]].
  split; [exact Hr | apply HL; simpl; lra].
Defined.

(** The pipeline on the "Other" camera preset, a 3840 x 2160 image, the
    pixel (2000, 1000), no tilt and the camera at (37.7749, -122.4194),
    for any altitude: the world offset is the altitude times
    [(1/160, -1/90, 1)], and the GPS pair is the camera's. *)
Lemma pipeline_other_preset_no_tilt (camera_altitude : R) :
  compute_K (50, 50) (15, 15) (3840, 2160)%Z
  = Ok (Vec3 (Vec3 12800 0 1920) (Vec3 0 7200 1080) (Vec3 0 0 1)) /\
  compute_object_world_coords (2000, 1000)
    (Vec3 (Vec3 12800 0 1920) (Vec3 0 7200 1080) (Vec3 0 0 1))
    (compute_camera_rotation 0) camera_altitude
  = Ok (Vec3 (Fin (camera_altitude / 160)) (Fin (- camera_altitude / 90))
             (Fin camera_altitude)) /\
  pipeline (50, 50) (15, 15) (3840, 2160)%Z 0 camera_altitude (2000, 1000)
    (377749 / 10000, - (1224194 / 10000))
  = Ok (Fin (377749 / 10000), Fin (- (1224194 / 10000))).
Proof.
  assert (HK : compute_K (50, 50) (15, 15) (3840, 2160)%Z
               = Ok (Vec3 (Vec3 12800 0 1920) (Vec3 0 7200 1080) (Vec3 0 0 1))).
  { rewrite compute_K_Ok by (simpl; lra). simpl.
    f_equal; mat_eq; trivial; lra. }
  assert (HW : compute_object_world_coords (2000, 1000)
                 (Vec3 (Vec3 12800 0 1920) (Vec3 0 7200 1080) (Vec3 0 0 1))
                 (compute_camera_rotation 0) camera_altitude
               = Ok (Vec3 (Fin (camera_altitude / 160))
                          (Fin (- camera_altitude / 90))
                          (Fin camera_altitude))).
  { rewrite compute_camera_rotation_0, world_coords_no_tilt by lra.
    f_equal; mat_eq; f_equal; field. }
  split; [exact HK | ]. split; [exact HW | ].
  rewrite (pipeline_after_compute_K _ _ _ _ _ _ _ _ HK), HW; cbn [bind].
  rewrite compute_object_gps_coords_camera; reflexivity.
Qed.

(** C4, as stated, fails: with the altitude -3 (and with the altitude 0)
    the pipeline raises nothing and returns a pair of finite numbers, the
    world offset on the way being finite too. *)
Lemma nonpositive_altitude_counterexample :
  -3 <= 0 /\
  compute_object_world_coords (2000, 1000)
    (Vec3 (Vec3 12800 0 1920) (Vec3 0 7200 1080) (Vec3 0 0 1))
    (compute_camera_rotation 0) (-3)
  = Ok (Vec3 (Fin (-3 / 160)) (Fin (- -3 / 90)) (Fin (-3))) /\
  pipeline (50, 50) (15, 15) (3840, 2160)%Z 0 (-3) (2000, 1000)
    (377749 / 10000, - (1224194 / 10000))
  = Ok (Fin (377749 / 10000), Fin (- (1224194 / 10000))) /\
  pipeline (50, 50) (15, 15) (3840, 2160)%Z 0 0 (2000, 1000)
    (377749 / 10000, - (1224194 / 10000))
  = Ok (Fin (377749 / 10000), Fin (- (1224194 / 10000))).
Proof.
  split; [lra | ].
  split; [apply (pipeline_other_preset_no_tilt (-3)) | ].
  split; [apply (pipeline_other_preset_no_tilt (-3)) | ].
  apply (pipeline_other_preset_no_tilt 0).
Qed.

(** Negative sensor dimensions are not rejected either: the focal lengths
    in pixels come out negative and the pipeline returns. *)
Example negative_sensor_returns :
  compute_K (50, 50) (-15, -15) (3840, 2160)%Z
  = Ok (Vec3 (Vec3 (-12800) 0 1920) (Vec3 0 (-7200) 1080) (Vec3 0 0 1)) /\
  pipeline (50, 50) (-15, -15) (3840, 2160)%Z 0 3 (2000, 1000) (0, 0)
  = Ok (Fin 0, Fin 0).
Proof.
  assert (HK : compute_K (50, 50) (-15, -15) (3840, 2160)%Z
               = Ok (Vec3 (Vec3 (-12800) 0 1920) (Vec3 0 (-7200) 1080)
                          (Vec3 0 0 1))).
  { rewrite compute_K_Ok by (simpl; lra). simpl.
    f_equal; mat_eq; trivial; lra. }
  split; [exact HK | ].
  rewrite (pipeline_after_compute_K _ _ _ _ _ _ _ _ HK).
  rewrite compute_object_world_coords_Ok by (rewrite det3_intrinsics; lra).
  cbv zeta; cbn [bind].
  apply f_equal, compute_object_gps_coords_camera.
Qed.

(** Nor are negative image dimensions: the principal point comes out
    negative and the pipeline returns. *)
Example negative_image_returns :
  compute_K (50, 50) (15, 15) (-3840, -2160)%Z
  = Ok (Vec3 (Vec3 (-12800) 0 (-1920)) (Vec3 0 (-7200) (-1080)) (Vec3 0 0 1)) /\
  pipeline (50, 50) (15, 15) (-3840, -2160)%Z 0 3 (2000, 1000) (0, 0)
  = Ok (Fin 0, Fin 0).
Proof.
  assert (HK : compute_K (50, 50) (15, 15) (-3840, -2160)%Z
               = Ok (Vec3 (Vec3 (-12800) 0 (-1920)) (Vec3 0 (-7200) (-1080))
                          (Vec3 0 0 1))).
  { rewrite compute_K_Ok by (simpl; lra). simpl.
    f_equal; mat_eq; trivial; lra. }
  split; [exact HK | ].
  rewrite (pipeline_after_compute_K _ _ _ _ _ _ _ _ HK).
  rewrite compute_object_world_coords_Ok by (rewrite det3_intrinsics; lra).
  cbv zeta; cbn [bind].
  apply f_equal, compute_object_gps_coords_camera.
Qed.

(** * Further properties *)

(** ** Matrix algebra *)

Ltac mat_unfold :=
  unfold mat_mul, mat_vec, transpose, vec_scale, mat_scale, identity3, dot,
    col0, col1, col2 in *; cbn [vx vy vz] in *.

Lemma mat_vec_mat_mul (A B : mat3) (v : vec3 R) :
  mat_vec (mat_mul A B) v = mat_vec A (mat_vec B v).
Proof.
  destruct A as [[a b c] [d e f] [g h i]], B as [[a' b' c'] [d' e' f'] [g' h' i']],
    v as [x y z].
  mat_unfold. mat_eq; ring.
Qed.

Lemma mat_mul_assoc (A B C : mat3) :
  mat_mul (mat_mul A B) C = mat_mul A (mat_mul B C).
Proof.
  destruct A as [[a b c] [d e f] [g h i]], B as [[a' b' c'] [d' e' f'] [g' h' i']],
    C as [[a2 b2 c2] [d2 e2 f2] [g2 h2 i2]].
  mat_unfold. mat_eq; ring.
Qed.

Lemma mat_mul_identity_l (A : mat3) : mat_mul identity3 A = A.
Proof. destruct A as [[a b c] [d e f] [g h i]]. mat_unfold. mat_eq; ring. Qed.

Lemma mat_mul_identity_r (A : mat3) : mat_mul A identity3 = A.
Proof. destruct A as [[a b c] [d e f] [g h i]]. mat_unfold. mat_eq; ring. Qed.

Lemma mat_vec_identity (v : vec3 R) : mat_vec identity3 v = v.
Proof. destruct v as [x y z]. mat_unfold. mat_eq; ring. Qed.

Lemma mat_vec_scale (A : mat3) (k : R) (v : vec3 R) :
  mat_vec A (vec_scale k v) = vec_scale k (mat_vec A v).
Proof.
  destruct A as [[a b c] [d e f] [g h i]], v as [x y z].
  mat_unfold. mat_eq; ring.
Qed.

Lemma mat_mul_inverse_r (K : mat3) :
  det3 K <> 0 -> mat_mul K (mat_inverse K) = identity3.
Proof.
  intros Hd. apply (np_linalg_inv_sound K). apply np_linalg_inv_Ok, Hd.
Qed.

(** ** More on [compute_camera_rotation] *)

Lemma rotation_times_transpose (alpha : R) :
  mat_mul (compute_camera_rotation alpha)
          (transpose (compute_camera_rotation alpha)) = identity3.
Proof.
  unfold compute_camera_rotation.
  set (t := deg2rad alpha).
  pose proof (sin_sq_cos_sq t) as Hsc.
  mat_unfold. mat_eq; try ring; lra.
Qed.

Lemma deg2rad_plus (a b : R) : deg2rad (a + b) = deg2rad a + deg2rad b.
Proof. unfold deg2rad; ring. Qed.

Lemma deg2rad_opp (a : R) : deg2rad (- a) = - deg2rad a.
Proof. unfold deg2rad; ring. Qed.

Lemma deg2rad_360 : deg2rad 360 = 2 * PI.
Proof. unfold deg2rad; field. Qed.

(** X1: tilts compose by adding their angles: the product of the matrices
    for [alpha] and [beta] is the matrix for [alpha + beta]. *)
Theorem compute_camera_rotation_compose (alpha beta : R) :
  mat_mul (compute_camera_rotation alpha) (compute_camera_rotation beta)
  = compute_camera_rotation (alpha + beta).
Proof.
  unfold compute_camera_rotation.
  rewrite deg2rad_plus, cos_plus, sin_plus.
  mat_unfold. mat_eq; ring.
Qed.

(** X2: the transpose of the tilt by [alpha], which
    [compute_object_world_coords] uses for the inverse, is the tilt by
    [- alpha], and it is what [np.linalg.inv] returns on the tilt. *)
Theorem compute_camera_rotation_transpose_inverse (alpha : R) :
  transpose (compute_camera_rotation alpha) = compute_camera_rotation (- alpha)
  /\ np_linalg_inv (compute_camera_rotation alpha)
     = Ok (transpose (compute_camera_rotation alpha)).
Proof.
  split.
  - unfold compute_camera_rotation.
    rewrite deg2rad_opp, cos_neg, sin_neg, Ropp_involutive. reflexivity.
  - assert (Hd : det3 (compute_camera_rotation alpha) = 1).
    { unfold compute_camera_rotation. pose proof (sin_sq_cos_sq (deg2rad alpha)).
      simpl. lra. }
    rewrite np_linalg_inv_Ok by (rewrite Hd; lra).
    f_equal. unfold mat_inverse. rewrite Hd.
    unfold compute_camera_rotation.
    set (t := deg2rad alpha).
    pose proof (sin_sq_cos_sq t) as Hsc.
    unfold mat_scale, vec_scale, transpose, col0, col1, col2; simpl.
    mat_eq; try (field_simplify; lra); lra.
Qed.

(** X3: a tilt keeps the second component of every vector and the length
    of every vector (its squared norm). *)
Theorem compute_camera_rotation_isometry (alpha : R) (v : vec3 R) :
  vy (mat_vec (compute_camera_rotation alpha) v) = vy v /\
  dot (mat_vec (compute_camera_rotation alpha) v)
      (mat_vec (compute_camera_rotation alpha) v) = dot v v.
Proof.
  unfold compute_camera_rotation.
  set (t := deg2rad alpha).
  pose proof (sin_sq_cos_sq t) as Hsc.
  destruct v as [x y z]. mat_unfold.
  split; [ring | ].
  replace ((cos t * x + 0 * y + sin t * z) * (cos t * x + 0 * y + sin t * z)
           + (0 * x + 1 * y + 0 * z) * (0 * x + 1 * y + 0 * z)
           + (- sin t * x + 0 * y + cos t * z) * (- sin t * x + 0 * y + cos t * z))
    with ((sin t * sin t + cos t * cos t) * (x * x + z * z) + y * y) by ring.
  rewrite Hsc; ring.
Qed.

(** X4: the tilt has period 360 degrees. *)
Theorem compute_camera_rotation_period (alpha : R) :
  compute_camera_rotation (alpha + 360) = compute_camera_rotation alpha.
Proof.
  unfold compute_camera_rotation.
  rewrite deg2rad_plus, deg2rad_360.
  rewrite cos_plus, sin_plus, cos_2PI, sin_2PI.
  mat_eq; ring.
Qed.

(** ** More on [compute_K] *)

(** X5: [compute_K] depends on the focal lengths and the sensor size only
    through their ratios: multiplying both pairs by a factor [k <> 0] (a
    change of unit) changes nothing, the exception for a zero sensor
    dimension included. *)
Theorem compute_K_unit_invariant (k f1 f2 w h : R) (W H : Z) :
  k <> 0 ->
  compute_K (k * f1, k * f2) (k * w, k * h) (W, H) =
  compute_K (f1, f2) (w, h) (W, H).
Proof.
  intros Hk.
  destruct (Req_dec_T w 0) as [Ew | Nw].
  { rewrite !compute_K_zero_sensor; trivial; left; simpl; subst w; ring. }
  destruct (Req_dec_T h 0) as [Eh | Nh].
  { rewrite !compute_K_zero_sensor; trivial; right; simpl; subst h; ring. }
  rewrite !compute_K_Ok
    by (simpl; auto using Rmult_integral_contrapositive_currified).
  simpl. f_equal. mat_eq; trivial; field; auto.
Qed.

Lemma compute_K_unit_invariant_witness :
  compute_K (10 * 5, 10 * 5) (10 * (3 / 2), 10 * (3 / 2)) (3840, 2160)%Z =
  compute_K (5, 5) (3 / 2, 3 / 2) (3840, 2160)%Z.
Proof.
  apply (compute_K_unit_invariant 10 5 5 (3 / 2) (3 / 2) 3840 2160); lra.
Defined.




(** ** More on [compute_object_world_coords] *)

Lemma back_projected_ray_mat_vec (object_image_coords : R * R)
  (Kinv R_tilt : mat3) :
  back_projected_ray object_image_coords Kinv R_tilt =
  mat_vec (transpose R_tilt)
    (mat_vec Kinv
       (Vec3 (fst object_image_coords) (snd object_image_coords) 1)).
Proof. unfold back_projected_ray. apply mat_vec_mat_mul. Qed.

(** The pixel [(x, y)] in the camera frame of intrinsics [f_x, f_y, c_x,
    c_y], and the ray through it under a tilt. *)
Section Intrinsics.

Variables f_x f_y c_x c_y : R.
Hypothesis f_x_nonzero : f_x <> 0.
Hypothesis f_y_nonzero : f_y <> 0.

Lemma mat_vec_inverse_intrinsics (x y : R) :
  mat_vec (mat_inverse (Vec3 (Vec3 f_x 0 c_x) (Vec3 0 f_y c_y) (Vec3 0 0 1)))
          (Vec3 x y 1)
  = Vec3 ((x - c_x) / f_x) ((y - c_y) / f_y) 1.
Proof.
  unfold mat_inverse, mat_vec, mat_scale, vec_scale, dot; simpl.
  mat_eq; field; auto.
Qed.

Lemma back_projected_ray_tilt (x y alpha : R) :
  back_projected_ray (x, y)
    (mat_inverse (Vec3 (Vec3 f_x 0 c_x) (Vec3 0 f_y c_y) (Vec3 0 0 1)))
    (compute_camera_rotation alpha)
  = Vec3 (cos (deg2rad alpha) * ((x - c_x) / f_x) - sin (deg2rad alpha))
         ((y - c_y) / f_y)
         (sin (deg2rad alpha) * ((x - c_x) / f_x) + cos (deg2rad alpha)).
Proof.
  rewrite back_projected_ray_mat_vec; cbn [fst snd].
  rewrite mat_vec_inverse_intrinsics.
  unfold compute_camera_rotation. mat_unfold. mat_eq; ring.
Qed.

End Intrinsics.


(** X9: the ground point is the altitude times a direction fixed by the
    pixel, [K] and the tilt: off the horizon there are [x1] and [y1] with
    [compute_object_world_coords] returning
    [(camera_altitude * x1, camera_altitude * y1, camera_altitude)] at
    every altitude (zero and negative ones included). *)
Theorem world_coords_linear_in_altitude (object_image_coords : R * R)
  (K R_tilt : mat3) :
  det3 K <> 0 ->
  vz (back_projected_ray object_image_coords (mat_inverse K) R_tilt) <> 0 ->
  exists x1 y1, forall camera_altitude,
    compute_object_world_coords object_image_coords K R_tilt camera_altitude
    = Ok (Vec3 (Fin (camera_altitude * x1)) (Fin (camera_altitude * y1))
               (Fin camera_altitude)).
Proof.
  intros Hd Hb.
  set (b := back_projected_ray object_image_coords (mat_inverse K) R_tilt) in *.
  exists (vx b / vz b), (vy b / vz b). intros alt.
  rewrite (compute_object_world_coords_Ok _ _ _ _ Hd); cbv zeta.
  fold b. unfold np_vec_div, vec_scale; cbn [vx vy vz].
  rewrite !np_div_Fin by exact Hb.
  f_equal. mat_eq; f_equal; field; exact Hb.
Qed.

Lemma world_coords_linear_in_altitude_witness :
  exists x1 y1, forall camera_altitude,
    compute_object_world_coords (2000, 1000)
      (Vec3 (Vec3 12800 0 1920) (Vec3 0 7200 1080) (Vec3 0 0 1))
      identity3 camera_altitude
    = Ok (Vec3 (Fin (camera_altitude * x1)) (Fin (camera_altitude * y1))
               (Fin camera_altitude)).
Proof.
  apply (world_coords_linear_in_altitude (2000, 1000)
           (Vec3 (Vec3 12800 0 1920) (Vec3 0 7200 1080) (Vec3 0 0 1))
           identity3).
  - rewrite det3_intrinsics; lra.
  - rewrite back_projected_ray_no_tilt by lra. simpl; lra.
Defined.

(** X10: the point returned projects back to the pixel.  For an invertible
    [K], a tilt [R_tilt = compute_camera_rotation alpha] and a pixel off
    the horizon, the returned point [(x, y, camera_altitude)] satisfies
    [K @ R_tilt @ (x, y, camera_altitude) = s * (x_im, y_im, 1)] with
    [s = camera_altitude / b[2]], the relation of the docstring. *)
Theorem world_coords_project_to_pixel (x_im y_im : R) (K : mat3)
  (alpha camera_altitude : R) :
  det3 K <> 0 ->
  vz (back_projected_ray (x_im, y_im) (mat_inverse K)
        (compute_camera_rotation alpha)) <> 0 ->
  exists x y,
    compute_object_world_coords (x_im, y_im) K (compute_camera_rotation alpha)
      camera_altitude
    = Ok (Vec3 (Fin x) (Fin y) (Fin camera_altitude)) /\
    mat_vec (mat_mul K (compute_camera_rotation alpha))
            (Vec3 x y camera_altitude)
    = vec_scale
        (camera_altitude /
         vz (back_projected_ray (x_im, y_im) (mat_inverse K)
               (compute_camera_rotation alpha)))
        (Vec3 x_im y_im 1).
Proof.
  intros Hd Hb.
  set (Rt := compute_camera_rotation alpha) in *.
  set (b := back_projected_ray (x_im, y_im) (mat_inverse K) Rt) in *.
  exists (camera_altitude / vz b * vx b), (camera_altitude / vz b * vy b).
  split.
  - rewrite (compute_object_world_coords_Ok _ _ _ _ Hd); cbv zeta.
    fold b. unfold np_vec_div, vec_scale; cbn [vx vy vz].
    rewrite !np_div_Fin by exact Hb.
    f_equal. mat_eq; f_equal; field; exact Hb.
  - replace (Vec3 (camera_altitude / vz b * vx b)
                  (camera_altitude / vz b * vy b) camera_altitude)
      with (vec_scale (camera_altitude / vz b) b).
    2:{ destruct b as [b0 b1 b2]; unfold vec_scale; cbn [vx vy vz] in *.
        mat_eq; trivial. field; exact Hb. }
    rewrite mat_vec_scale. f_equal.
    unfold b. rewrite back_projected_ray_mat_vec; cbn [fst snd].
    rewrite <- !mat_vec_mat_mul.
    rewrite (mat_mul_assoc K Rt (transpose Rt)).
    unfold Rt. rewrite rotation_times_transpose.
    rewrite mat_mul_identity_r, (mat_mul_inverse_r K Hd).
    apply mat_vec_identity.
Qed.

Lemma world_coords_project_to_pixel_witness :
  exists x y,
    compute_object_world_coords (2000, 1000)
      (Vec3 (Vec3 12800 0 1920) (Vec3 0 7200 1080) (Vec3 0 0 1))
      (compute_camera_rotation 90) 3
    = Ok (Vec3 (Fin x) (Fin y) (Fin 3)) /\
    mat_vec (mat_mul (Vec3 (Vec3 12800 0 1920) (Vec3 0 7200 1080) (Vec3 0 0 1))
                     (compute_camera_rotation 90))
            (Vec3 x y 3)
    = vec_scale
        (3 /
         vz (back_projected_ray (2000, 1000)
               (mat_inverse
                  (Vec3 (Vec3 12800 0 1920) (Vec3 0 7200 1080) (Vec3 0 0 1)))
               (compute_camera_rotation 90)))
        (Vec3 2000 1000 1).
Proof.
  apply (world_coords_project_to_pixel 2000 1000
           (Vec3 (Vec3 12800 0 1920) (Vec3 0 7200 1080) (Vec3 0 0 1)) 90 3).
  - rewrite det3_intrinsics; lra.
  - rewrite back_projected_ray_tilt by lra.
    rewrite deg2rad_90, sin_PI2, cos_PI2. cbn [vz]. lra.
Defined.

(** X11: the optical axis meets the ground at distance
    [camera_altitude * tan alpha] along the first axis.  For [K] of the shape [compute_K] returns, with
    nonzero [f_x] and [f_y], and a tilt whose cosine is not zero, the
    principal point [(c_x, c_y)] is sent to
    [(- camera_altitude * tan alpha, 0, camera_altitude)]. *)
Theorem principal_point_under_tilt (f_x f_y c_x c_y alpha camera_altitude : R) :
  f_x <> 0 -> f_y <> 0 -> cos (deg2rad alpha) <> 0 ->
  compute_object_world_coords (c_x, c_y)
    (Vec3 (Vec3 f_x 0 c_x) (Vec3 0 f_y c_y) (Vec3 0 0 1))
    (compute_camera_rotation alpha) camera_altitude
  = Ok (Vec3 (Fin (- camera_altitude * tan (deg2rad alpha))) (Fin 0)
             (Fin camera_altitude)).
Proof.
  intros Hx Hy Hc.
  rewrite compute_object_world_coords_Ok
    by (rewrite det3_intrinsics; apply Rmult_integral_contrapositive_currified;
        assumption).
  cbv zeta. rewrite (back_projected_ray_tilt _ _ _ _ Hx Hy).
  set (t := deg2rad alpha) in *.
  unfold np_vec_div, vec_scale; cbn [vx vy vz].
  replace (sin t * ((c_x - c_x) / f_x) + cos t) with (cos t) by (field; exact Hx).
  rewrite !np_div_Fin by exact Hc.
  unfold tan. f_equal. mat_eq; f_equal; field; auto.
Qed.

Lemma principal_point_under_tilt_witness :
  compute_object_world_coords (1920, 1080)
    (Vec3 (Vec3 12800 0 1920) (Vec3 0 7200 1080) (Vec3 0 0 1))
    (compute_camera_rotation 45) 3
  = Ok (Vec3 (Fin (- 3 * tan (deg2rad 45))) (Fin 0) (Fin 3)).
Proof.
  apply (principal_point_under_tilt 12800 7200 1920 1080 45 3); try lra.
  replace (deg2rad 45) with (PI / 4) by (unfold deg2rad; field).
  apply Rgt_not_eq, cos_gt_0; pose proof PI_RGT_0; lra.
Defined.



(** X13: the ground point does not depend on the resolution the image is
    stored at.  For an image of even width and height, multiplying the
    image size and the pixel coordinates by an integer [m <> 0] changes
    neither the point returned nor the exception raised. *)
Theorem world_coords_resolution_invariant (focal_length sensor_size : R * R)
  (W2 H2 m : Z) (x_im y_im : R) (R_tilt : mat3) (camera_altitude : R) :
  m <> 0%Z ->
  (K <- compute_K focal_length sensor_size (m * (2 * W2), m * (2 * H2))%Z ;;
   compute_object_world_coords (IZR m * x_im, IZR m * y_im) K R_tilt
     camera_altitude)
  =
  (K <- compute_K focal_length sensor_size (2 * W2, 2 * H2)%Z ;;
   compute_object_world_coords (x_im, y_im) K R_tilt camera_altitude).
Proof.
  intros Hm.
  assert (Hmr : IZR m <> 0) by (apply not_0_IZR; exact Hm).
  destruct (Req_dec_T (fst sensor_size) 0) as [Ew | Nw].
  { rewrite !compute_K_zero_sensor by (left; exact Ew). reflexivity. }
  destruct (Req_dec_T (snd sensor_size) 0) as [Eh | Nh].
  { rewrite !compute_K_zero_sensor by (right; exact Eh). reflexivity. }
  rewrite !compute_K_Ok by assumption. cbn [bind fst snd].
  unfold py_floordiv2.
  replace (m * (2 * W2))%Z with (m * W2 * 2)%Z by ring.
  replace (m * (2 * H2))%Z with (m * H2 * 2)%Z by ring.
  replace (2 * W2)%Z with (W2 * 2)%Z by ring.
  replace (2 * H2)%Z with (H2 * 2)%Z by ring.
  rewrite !Z.div_mul by lia.
  rewrite !mult_IZR.
  set (qx := fst focal_length / fst sensor_size).
  set (qy := snd focal_length / snd sensor_size).
  destruct (Req_dec_T (qx * (IZR W2 * 2) * (qy * (IZR H2 * 2))) 0) as [E | N].
  - rewrite !compute_object_world_coords_singular; trivial;
      rewrite det3_intrinsics; [exact E | ].
    replace (qx * (IZR m * IZR W2 * 2) * (qy * (IZR m * IZR H2 * 2)))
      with (IZR m * IZR m * (qx * (IZR W2 * 2) * (qy * (IZR H2 * 2)))) by ring.
    rewrite E; ring.
  - assert (Nx : qx * (IZR W2 * 2) <> 0)
      by (intros E; apply N; rewrite E; ring).
    assert (Ny : qy * (IZR H2 * 2) <> 0)
      by (intros E; apply N; rewrite E; ring).
    assert (Nxm : qx * (IZR m * IZR W2 * 2) <> 0).
    { replace (qx * (IZR m * IZR W2 * 2)) with (IZR m * (qx * (IZR W2 * 2)))
        by ring.
      apply Rmult_integral_contrapositive_currified; assumption. }
    assert (Nym : qy * (IZR m * IZR H2 * 2) <> 0).
    { replace (qy * (IZR m * IZR H2 * 2)) with (IZR m * (qy * (IZR H2 * 2)))
        by ring.
      apply Rmult_integral_contrapositive_currified; assumption. }
    rewrite !compute_object_world_coords_Ok
      by (rewrite det3_intrinsics;
          apply Rmult_integral_contrapositive_currified; assumption).
    cbv zeta. rewrite !back_projected_ray_mat_vec; cbn [fst snd].
    rewrite !mat_vec_inverse_intrinsics by assumption.
    replace ((IZR m * x_im - IZR m * IZR W2) / (qx * (IZR m * IZR W2 * 2)))
      with ((x_im - IZR W2) / (qx * (IZR W2 * 2))).
    2:{ field. repeat split; trivial.
        - intros E; apply Nx; rewrite E; ring.
        - intros E; apply Nx; rewrite E; ring. }
    replace ((IZR m * y_im - IZR m * IZR H2) / (qy * (IZR m * IZR H2 * 2)))
      with ((y_im - IZR H2) / (qy * (IZR H2 * 2))).
    2:{ field. repeat split; trivial.
        - intros E; apply Ny; rewrite E; ring.
        - intros E; apply Ny; rewrite E; ring. }
    reflexivity.
Qed.

Lemma world_coords_resolution_invariant_witness :
  (K <- compute_K (50, 50) (15, 15) (2 * (2 * 960), 2 * (2 * 540))%Z ;;
   compute_object_world_coords (IZR 2 * 1000, IZR 2 * 500) K
     (compute_camera_rotation 45) 3)
  =
  (K <- compute_K (50, 50) (15, 15) (2 * 960, 2 * 540)%Z ;;
   compute_object_world_coords (1000, 500) K (compute_camera_rotation 45) 3).
Proof.
  apply (world_coords_resolution_invariant (50, 50) (15, 15) 960 540 2
           1000 500 (compute_camera_rotation 45) 3).
  lia.
Defined.

(** ** More on the pipeline *)


(** ** The values [compute_object_gps_coords] binds and does not return *)

Lemma atan2_0_nonneg (x : R) : 0 <= x -> atan2 0 x = 0.
Proof.
  intros [Hx | <-]; [apply atan2_0_pos; exact Hx | ].
  unfold atan2.
  destruct (Rlt_dec 0 0) as [H | _]; [lra | ].
  destruct (Rlt_dec 0 0) as [H | _]; [lra | reflexivity].
Qed.

Lemma deg2rad_quarter_turn (lat0 : R) :
  -90 <= lat0 <= 90 -> - (PI / 2) <= lat0 * (PI / 180) <= PI / 2.
Proof.
  intros [Hl Hu]. pose proof PI_RGT_0 as Hpi.
  assert (Hk : 0 < PI / 180) by lra.
  split.
  - replace (- (PI / 2)) with (-90 * (PI / 180)) by field.
    apply Rmult_le_compat_r; lra.
  - replace (PI / 2) with (90 * (PI / 180)) by field.
    apply Rmult_le_compat_r; lra.
Qed.

Lemma destination_point_zero_offset (lat0 lon0 : R) :
  -90 <= lat0 <= 90 -> destination_point 0 0 lat0 lon0 = (lat0, lon0).
Proof.
  intros Hlat. apply deg2rad_quarter_turn in Hlat.
  unfold destination_point; cbv zeta.
  replace (0 * 0 + 0 * 0) with 0 by ring.
  rewrite sqrt_0. replace (0 / R_E) with 0 by (unfold R_E; field).
  rewrite (atan2_0_nonneg 0) by lra. rewrite sin_0, cos_0.
  set (l := lat0 * (PI / 180)) in *.
  replace (sin l * 1 + cos l * 0 * 1) with (sin l) by ring.
  rewrite (asin_sin l Hlat).
  replace (0 * 0 * cos l) with 0 by ring.
  rewrite atan2_0_nonneg.
  2:{ pose proof (sin_sq_cos_sq l). pose proof (Rle_0_sqr (cos l)).
      unfold Rsqr in *. lra. }
  unfold l. apply f_equal2; field; exact PI_neq0'.
Qed.

(** X15: for a world offset [(0, 0, z)] and a camera latitude between -90
    and 90 degrees, the values bound to [lat2_rad] and [lon2_rad], in
    degrees, are the camera's latitude and longitude: the geodesic formula
    of the function moves nothing at distance zero, the poles included. *)
Theorem body_zero_offset (z : npfloat) (lat0 lon0 : R) :
  -90 <= lat0 <= 90 ->
  np_degrees
    (lat2_rad
       (compute_object_gps_coords_body (Vec3 (Fin 0) (Fin 0) z) (lat0, lon0)))
  = Fin lat0 /\
  np_degrees
    (lon2_rad
       (compute_object_gps_coords_body (Vec3 (Fin 0) (Fin 0) z) (lat0, lon0)))
  = Fin lon0.
Proof.
  intros Hlat.
  pose proof (body_computes_destination 0 0 z lat0 lon0) as Hb.
  cbv zeta in Hb. rewrite (destination_point_zero_offset _ _ Hlat) in Hb.
  injection Hb as H1 H2. split; assumption.
Qed.

Lemma body_zero_offset_witness :
  np_degrees
    (lat2_rad
       (compute_object_gps_coords_body (Vec3 (Fin 0) (Fin 0) (Fin 3))
          (90, 10)))
  = Fin 90 /\
  np_degrees
    (lon2_rad
       (compute_object_gps_coords_body (Vec3 (Fin 0) (Fin 0) (Fin 3))
          (90, 10)))
  = Fin 10.
Proof. apply (body_zero_offset (Fin 3) 90 10); lra. Defined.


Lemma np_div_by_zero_not_finite (x : R) : not_finite (np_div (Fin x) (Fin 0)).
Proof. apply np_div_by_zero. Qed.

(** On a world offset whose first and second coordinates are not finite,
    the values bound to [lat2_rad] and [lon2_rad] are NaN. *)
Lemma body_not_finite (x y z : npfloat) (lat0 lon0 : R) :
  not_finite x -> not_finite y ->
  lat2_rad (compute_object_gps_coords_body (Vec3 x y z) (lat0, lon0)) = NaN /\
  lon2_rad (compute_object_gps_coords_body (Vec3 x y z) (lat0, lon0)) = NaN.
Proof.
  intros Hx Hy.
  assert (Hx' : x = NaN \/ x = PInf \/ x = NInf)
    by (destruct Hx as [-> | Hx]; [auto | destruct x; simpl in Hx; tauto]).
  assert (Hy' : y = NaN \/ y = PInf \/ y = NInf)
    by (destruct Hy as [-> | Hy]; [auto | destruct y; simpl in Hy; tauto]).
  unfold compute_object_gps_coords_body; cbv zeta; cbn [lat2_rad lon2_rad vx vy].
  destruct Hx' as [-> | [-> | ->]], Hy' as [-> | [-> | ->]];
    cbn; repeat (destruct (Rlt_dec 6371000 0) as [Hlt | _]; [lra | ]);
    cbn; split; reflexivity.
Qed.

(** X17: on the horizon the destination is lost without a sign.  When [K]
    is invertible and the third component of the ray is zero, the array
    that [compute_object_world_coords] returns makes
    [compute_object_gps_coords] bind NaN to [lat2_rad] and [lon2_rad], and
    the pair it returns is still the camera's latitude and longitude. *)
Theorem horizon_destination_is_nan (object_image_coords : R * R)
  (K R_tilt : mat3) (camera_altitude lat0 lon0 : R) :
  det3 K <> 0 ->
  vz (back_projected_ray object_image_coords (mat_inverse K) R_tilt) = 0 ->
  exists w,
    compute_object_world_coords object_image_coords K R_tilt camera_altitude
    = Ok w /\
    lat2_rad (compute_object_gps_coords_body w (lat0, lon0)) = NaN /\
    lon2_rad (compute_object_gps_coords_body w (lat0, lon0)) = NaN /\
    compute_object_gps_coords w (lat0, lon0) = (Fin lat0, Fin lon0).
Proof.
  intros Hd Hb.
  rewrite (compute_object_world_coords_Ok _ _ _ _ Hd); cbv zeta.
  eexists; split; [reflexivity | ].
  unfold np_vec_div; rewrite Hb.
  rewrite compute_object_gps_coords_camera.
  match goal with
  | |- lat2_rad (compute_object_gps_coords_body (Vec3 ?a ?b ?c) _) = _ /\ _ =>
      destruct (body_not_finite a b c lat0 lon0) as [H1 H2];
      try apply np_div_by_zero_not_finite
  end.
  split; [exact H1 | ]. split; [exact H2 | reflexivity].
Qed.

Lemma horizon_destination_is_nan_witness :
  exists w,
    compute_object_world_coords (0, 0) identity3 R_tilt_90 3 = Ok w /\
    lat2_rad (compute_object_gps_coords_body w (10, 20)) = NaN /\
    lon2_rad (compute_object_gps_coords_body w (10, 20)) = NaN /\
    compute_object_gps_coords w (10, 20) = (Fin 10, Fin 20).
Proof.
  apply (horizon_destination_is_nan (0, 0) identity3 R_tilt_90 3 10 20).
  - rewrite det3_identity; lra.
  - rewrite back_projected_ray_horizon; reflexivity.
Defined.

(** ** The camera presets *)

Lemma camera_defaults_positive (camera_type : string) :
  0 < fst (fst (camera_defaults camera_type)) /\
  0 < snd (fst (camera_defaults camera_type)) /\
  0 < fst (snd (camera_defaults camera_type)) /\
  0 < snd (snd (camera_defaults camera_type)).
Proof.
  unfold camera_defaults.
  destruct (String.eqb camera_type "Wide-Angle Camera");
    [ | destruct (String.eqb camera_type "Telephoto Camera")];
    cbn [fst snd]; repeat split; lra.
Qed.

(** X18: whatever option is chosen under "Select Camera Type", the focal
    lengths and the sensor size the form then shows are positive, so with
    them and an image of positive width and height the pipeline raises
    nothing: it returns, for every pixel, tilt and altitude. *)
Theorem camera_defaults_pipeline_returns (camera_type : string)
  (image_size : Z * Z) (alpha camera_altitude : R)
  (object_image_coords : R * R) (lat0 lon0 : R) :
  (0 < fst image_size)%Z -> (0 < snd image_size)%Z ->
  pipeline (fst (camera_defaults camera_type))
    (snd (camera_defaults camera_type)) image_size alpha camera_altitude
    object_image_coords (lat0, lon0)
  = Ok (Fin lat0, Fin lon0).
Proof.
  intros HW HH.
  destruct (camera_defaults_positive camera_type) as (Hf1 & Hf2 & Hw & Hh).
  set (focal_length := fst (camera_defaults camera_type)) in *.
  set (sensor_size := snd (camera_defaults camera_type)) in *.
  assert (HWr : 0 < IZR (fst image_size)) by (apply IZR_lt; exact HW).
  assert (HHr : 0 < IZR (snd image_size)) by (apply IZR_lt; exact HH).
  rewrite (pipeline_after_compute_K _ _ _ _ _ _ _ _
             (compute_K_Ok focal_length sensor_size image_size
                ltac:(lra) ltac:(lra))).
  rewrite compute_object_world_coords_Ok.
  - cbv zeta; cbn [bind]. rewrite compute_object_gps_coords_camera. reflexivity.
  - rewrite det3_intrinsics.
    apply Rgt_not_eq, Rmult_lt_0_compat;
      (apply Rmult_lt_0_compat; [apply Rdiv_lt_0_compat | ]; assumption).
Qed.

Lemma camera_defaults_pipeline_returns_witness :
  pipeline (fst (camera_defaults "Telephoto Camera"))
    (snd (camera_defaults "Telephoto Camera")) (3840, 2160)%Z 45 3
    (2000, 1000) (377749 / 10000, - (1224194 / 10000))
  = Ok (Fin (377749 / 10000), Fin (- (1224194 / 10000))).
Proof.
  apply (camera_defaults_pipeline_returns "Telephoto Camera" (3840, 2160)%Z
           45 3 (2000, 1000)); reflexivity.
Defined.
